(** * The data-loading adapter of lib/data.py

    [lib/data.py] defines one class, [Dataset], that configures a
    tensor framework's lookup tables and dataset pipeline.  The class
    owns no algorithm: every line either normalises a constructor
    argument or asks the framework to build an object.  The embedding
    therefore has three layers.

    - [Py]: the Python values the constructor can be handed, with the
      handful of dynamic operations the code applies to them
      ([isinstance(_, str)], [type(_) == str], truth value, [list(_)],
      [_ * 3], name lookup).
    - [TF]: the framework objects the code asks for, as first-order
      terms.  A term records which primitive was requested and with
      which arguments; the framework's own behaviour is not modelled.
    - the class itself, written in a monad that logs every request made
      to the framework, in program order, and lets any request raise.
      Which requests raise is a parameter ([raises]) of the whole
      development, so every statement holds for every framework
      behaviour. *)

From Stdlib Require Import ZArith List String Ascii Bool Lia.
Import ListNotations.

Local Open Scope Z_scope.
Local Open Scope string_scope.

(* ================================================================== *)
(** ** Python values *)

Module Py.

#[local] Set Warnings "-register-all".

(** The values that can reach the constructor: [None], booleans,
    unbounded integers, strings, lists, dictionaries (their items in
    insertion order) and plain [object()] instances.  Floats, tuples,
    sets and instances of user classes are left out. *)
Inductive value : Type :=
| PyNone
| PyBool (b : bool)
| PyInt (z : Z)
| PyStr (s : string)
| PyList (l : list value)
| PyDict (items : list (value * value))
| PyObject.

(** Exceptions.  [FrameworkError] stands for whatever exception a
    framework primitive raises; its payload is that exception. *)
Inductive exn : Type :=
| NameError (name : string)
| AssertionError (msg : string)
| TypeError (msg : string)
| FrameworkError (e : string).

(** [type(v).__name__] *)
Definition type_name (v : value) : string :=
  match v with
  | PyNone => "NoneType"
  | PyBool _ => "bool"
  | PyInt _ => "int"
  | PyStr _ => "str"
  | PyList _ => "list"
  | PyDict _ => "dict"
  | PyObject => "object"
  end.

(** [isinstance(v, str)] *)
Definition isinstance_str (v : value) : bool :=
  match v with PyStr _ => true | _ => false end.

(** [type(v) == str]; the values above include no subclass of [str],
    so the two tests agree on them. *)
Definition type_is_str (v : value) : bool :=
  match v with PyStr _ => true | _ => false end.

(** Truth value of [v], as tested by [if v] and [not v]. *)
Definition truthy (v : value) : bool :=
  match v with
  | PyNone => false
  | PyBool b => b
  | PyInt z => negb (z =? 0)%Z
  | PyStr s => match s with EmptyString => false | String _ _ => true end
  | PyList l => match l with [] => false | _ :: _ => true end
  | PyDict items => match items with [] => false | _ :: _ => true end
  | PyObject => true
  end.

(** The characters of a string, each as a one-character string; an
    [ascii] stands for one character of the Python string. *)
Definition chars (s : string) : list value :=
  map (fun c => PyStr (String c EmptyString)) (list_ascii_of_string s).

(** [s * n] on sequences: [n] copies, none when [n <= 0]. *)
Fixpoint str_repeat (s : string) (n : nat) : string :=
  match n with
  | O => EmptyString
  | S n' => s ++ str_repeat s n'
  end.

Fixpoint list_repeat (l : list value) (n : nat) : list value :=
  match n with
  | O => []
  | S n' => (l ++ list_repeat l n')%list
  end.

End Py.
Import Py.

(* ================================================================== *)
(** ** Framework objects *)

Module TF.

Inductive dtype : Type := tf_string | tf_int64.

(** [tensorflow.lookup.TextFileIndex] *)
Inductive TextFileIndex : Type := WHOLE_LINE | LINE_NUMBER.

(** [TextFileInitializer(filename, key_dtype, key_index, value_dtype,
    value_index, delimiter)] *)
Record TextFileInitializer : Type := {
  filename : value;
  key_dtype : dtype;
  key_index : TextFileIndex;
  value_dtype : dtype;
  value_index : TextFileIndex;
  delimiter : string
}.

(** [StaticVocabularyTable(initializer, num_oov_buckets)] *)
Record StaticVocabularyTable : Type := {
  initializer : TextFileInitializer;
  num_oov_buckets : Z
}.

(** [tf.TensorShape(dims)]; an unknown dimension is [None]. *)
Record TensorShape : Type := { dims : list (option Z) }.

(** [tf.constant(v, dtype)] *)
Record Constant : Type := { const_value : Z; const_dtype : dtype }.

(** The two functions handed to [map].  Each is the lambda of
    [_process], closed over the table it reads from [self]; the bodies
    of [process_text] and [process_target] live in another module and
    are not needed here. *)
Inductive map_fn : Type :=
| process_text (word_table : StaticVocabularyTable)
| process_target (tag_table : StaticVocabularyTable).

(** A [tf.data] dataset, as the chain of primitives that built it. *)
Inductive dataset : Type :=
| TextLineDataset (filenames : value)
| Map (src : dataset) (f : map_fn) (num_parallel_calls : value)
| Zip (a b : dataset)
| Shuffle (src : dataset) (buffer_size seed : value)
| PaddedBatch (src : dataset) (batch_size : value)
    (padded_shapes : TensorShape * TensorShape)
    (padding_values : Constant * Constant)
| Prefetch (src : dataset) (n : value).

(** One request to the framework: the object it is asked to build. *)
Inductive call : Type :=
| NewInitializer (i : TextFileInitializer)
| NewTable (t : StaticVocabularyTable)
| NewShape (s : TensorShape)
| NewConstant (c : Constant)
| NewDataset (d : dataset).

(** The line-feed character, ['\n']. *)
Definition newline : string := String "010"%char EmptyString.

End TF.
Import TF.

(* ================================================================== *)
(** ** Computations: a log of framework requests and an outcome *)

Definition M (A : Type) : Type := (list call * (exn + A))%type.

Definition ret {A} (a : A) : M A := ([], inr a).

Definition raise {A} (e : exn) : M A := ([], inl e).

Definition bind {A B} (m : M A) (k : A -> M B) : M B :=
  match m with
  | (log, inl e) => (log, inl e)
  | (log, inr a) => let (log', r) := k a in ((log ++ log')%list, r)
  end.

Notation "x <- m ;; k" := (bind m (fun x => k))
  (at level 61, m at next level, right associativity).
Notation "m ;;; k" := (bind m (fun _ => k))
  (at level 61, right associativity).

Definition log_of {A} (m : M A) : list call := fst m.
Definition outcome {A} (m : M A) : exn + A := snd m.

(** [assert cond, msg], with assertions enabled *)
Definition assert_ (cond : bool) (msg : string) : M unit :=
  if cond then ret tt else raise (AssertionError msg).

(** Reading the name [n] in a scope of bound names. *)
Fixpoint load_name (scope : list (string * value)) (n : string) : M value :=
  match scope with
  | [] => raise (NameError n)
  | (x, v) :: rest => if String.eqb x n then ret v else load_name rest n
  end.

(** [list(v)]: the characters of a string, the elements of a list,
    the keys of a dictionary; other values are not iterable. *)
Definition py_list (v : value) : M value :=
  match v with
  | PyStr s => ret (PyList (chars s))
  | PyList l => ret (PyList l)
  | PyDict items => ret (PyList (map fst items))
  | PyNone | PyBool _ | PyInt _ | PyObject =>
      raise (TypeError ("'" ++ type_name v ++ "' object is not iterable"))
  end.

(** [v * k] for an integer literal [k]: numbers multiply, sequences
    repeat, and any other left operand raises [TypeError]. *)
Definition py_mul_int (v : value) (k : Z) : M value :=
  match v with
  | PyInt z => ret (PyInt (z * k))
  | PyBool b => ret (PyInt ((if b then 1 else 0) * k))
  | PyStr s => ret (PyStr (str_repeat s (Z.to_nat k)))
  | PyList l => ret (PyList (list_repeat l (Z.to_nat k)))
  | PyNone | PyDict _ | PyObject =>
      raise (TypeError ("unsupported operand type(s) for *: '"
                        ++ type_name v ++ "' and 'int'"))
  end.

(* ================================================================== *)
(** ** class Dataset *)

(** The attributes [__init__] stores on [self]. *)
Record Dataset : Type := {
  texts : value;
  targets : value;
  batch_size : value;
  shuffle : value;
  seed : value;
  threads : value;
  prefetch : value;
  name : value;
  word_table : StaticVocabularyTable;
  tag_table : StaticVocabularyTable;
  buffer_size : value
}.

(** Defaults of the constructor's signature. *)
Module Defaults.
Definition batch_size : value := PyInt 16.
Definition shuffle : value := PyBool true.
Definition buffer_size : value := PyInt 239.
Definition seed : value := PyInt 1997.
Definition threads : value := PyInt 4.
Definition prefetch : value := PyInt 1.
Definition name : value := PyStr "Dataset Loader".
End Defaults.

Section Loader.

(** The framework: [raises c = Some e] when building [c] raises [e]. *)
Variable raises : call -> option string.

(** One request: logged, then either raised or granted. *)
Definition request (c : call) : M unit :=
  ([c], match raises c with
        | Some e => inl (FrameworkError e)
        | None => inr tt
        end).

Definition new_dataset (d : dataset) : M dataset :=
  request (NewDataset d) ;;; ret d.

(** [Dataset._create_lookup_table(self, file, num_oov_buckets = 1)] *)
Definition _create_lookup_table (file : value) (num_oov_buckets : value)
  : M StaticVocabularyTable :=
  let initializer :=
    {| filename := file;
       key_dtype := tf_string; key_index := WHOLE_LINE;
       value_dtype := tf_int64; value_index := LINE_NUMBER;
       delimiter := newline |} in
  request (NewInitializer initializer) ;;;
  let table := {| initializer := initializer; num_oov_buckets := 1 |} in
  request (NewTable table) ;;;
  ret table.

(** [Dataset.__init__].  The attributes are collected into the record
    once the body has run to its end; when it raises, the half-built
    object is dropped with the exception.  [scope] is the parameter
    list: the names a read inside the body can find before the
    module's own ([os], [datetime], [tf], [TextLineDataset], [Dataset],
    [TextFileInitializer], [TextFileIndex], [StaticVocabularyTable],
    [process_text], [process_target]) and the builtins, none of which
    is spelled [text]. *)
Definition __init__
  (texts targets word_table tag_table
   batch_size shuffle buffer_size seed threads prefetch name : value)
  : M Dataset :=
  let scope :=
    [("texts", texts); ("targets", targets);
     ("word_table", word_table); ("tag_table", tag_table);
     ("batch_size", batch_size); ("shuffle", shuffle);
     ("buffer_size", buffer_size); ("seed", seed);
     ("threads", threads); ("prefetch", prefetch); ("name", name)] in
  texts <- (if isinstance_str texts
            then text <- load_name scope "text" ;; py_list text
            else ret texts) ;;
  targets <- (if isinstance_str targets
              then py_list targets
              else ret targets) ;;
  assert_ (type_is_str word_table) "Word table must be string type" ;;;
  word_table <- _create_lookup_table word_table (PyInt 1) ;;
  assert_ (type_is_str tag_table) "Tag table must be string type" ;;;
  tag_table <- _create_lookup_table tag_table (PyInt 1) ;;
  buffer_size <- (if negb (truthy buffer_size)
                  then py_mul_int batch_size 3
                  else ret buffer_size) ;;
  ret (Build_Dataset texts targets batch_size shuffle seed threads
         prefetch name word_table tag_table buffer_size).

(** The constructor called with the four required arguments only. *)
Definition __init__default (texts targets word_table tag_table : value)
  : M Dataset :=
  __init__ texts targets word_table tag_table
    Defaults.batch_size Defaults.shuffle Defaults.buffer_size
    Defaults.seed Defaults.threads Defaults.prefetch Defaults.name.

(** [Dataset._process(self, texts, targets)] *)
Definition _process (self : Dataset) (texts targets : dataset)
  : M dataset :=
  texts <- new_dataset
    (Map texts (process_text (word_table self)) (threads self)) ;;
  targets <- new_dataset
    (Map targets (process_target (tag_table self)) (threads self)) ;;
  dataset <- new_dataset (Zip texts targets) ;;
  dataset <- (if truthy (shuffle self)
              then new_dataset
                     (Shuffle dataset (buffer_size self) (seed self))
              else ret dataset) ;;
  shape_text <- (let s := {| dims := [None] |} in
                 request (NewShape s) ;;; ret s) ;;
  shape_target <- (let s := {| dims := [None; None] |} in
                   request (NewShape s) ;;; ret s) ;;
  pad_text <- (let c := {| const_value := 0; const_dtype := tf_int64 |} in
               request (NewConstant c) ;;; ret c) ;;
  pad_target <- (let c := {| const_value := 0; const_dtype := tf_int64 |} in
                 request (NewConstant c) ;;; ret c) ;;
  dataset <- new_dataset
    (PaddedBatch dataset (batch_size self)
       (shape_text, shape_target) (pad_text, pad_target)) ;;
  dataset <- new_dataset (Prefetch dataset (prefetch self)) ;;
  ret dataset.

(** [Dataset.__call__(self)] *)
Definition __call__ (self : Dataset) : M dataset :=
  texts <- new_dataset (TextLineDataset (texts self)) ;;
  targets <- new_dataset (TextLineDataset (targets self)) ;;
  dataset <- _process self texts targets ;;
  ret dataset.

End Loader.

Arguments request raises c /.
Arguments new_dataset raises d /.

(* ================================================================== *)
(** ** Reading results *)

(** [returns m a]: the computation ran to its end and produced [a]. *)
Definition returns {A} (m : M A) (a : A) : Prop := outcome m = inr a.

(** [raised m e]: the computation stopped with the exception [e]. *)
Definition raised {A} (m : M A) (e : exn) : Prop := outcome m = inl e.

(** A framework that grants every request. *)
Definition lenient : call -> option string := fun _ => None.

(** The table [_create_lookup_table] asks for when given [file]. *)
Definition vocabulary_initializer (file : value) : TextFileInitializer :=
  {| filename := file;
     key_dtype := tf_string; key_index := WHOLE_LINE;
     value_dtype := tf_int64; value_index := LINE_NUMBER;
     delimiter := newline |}.

Definition vocabulary_table (file : value) : StaticVocabularyTable :=
  {| initializer := vocabulary_initializer file; num_oov_buckets := 1 |}.

(** What lines 48-49 leave in [targets]. *)
Definition normalised_targets (targets : value) : value :=
  match targets with PyStr s => PyList (chars s) | _ => targets end.

(** Projections of a pipeline: the arguments each kind of stage was
    built with, upstream stages first. *)
Fixpoint line_readers (d : dataset) : list value :=
  match d with
  | TextLineDataset f => [f]
  | Map src _ _ | Shuffle src _ _ | PaddedBatch src _ _ _
  | Prefetch src _ => line_readers src
  | Zip a b => line_readers a ++ line_readers b
  end.

Fixpoint map_stages (d : dataset) : list (map_fn * value) :=
  match d with
  | TextLineDataset _ => []
  | Map src f n => map_stages src ++ [(f, n)]
  | Shuffle src _ _ | PaddedBatch src _ _ _ | Prefetch src _ =>
      map_stages src
  | Zip a b => map_stages a ++ map_stages b
  end.

Fixpoint shuffle_stages (d : dataset) : list (value * value) :=
  match d with
  | TextLineDataset _ => []
  | Shuffle src b s => shuffle_stages src ++ [(b, s)]
  | Map src _ _ | PaddedBatch src _ _ _ | Prefetch src _ =>
      shuffle_stages src
  | Zip a b => shuffle_stages a ++ shuffle_stages b
  end.

Fixpoint batch_stages (d : dataset)
  : list (value * (TensorShape * TensorShape) * (Constant * Constant)) :=
  match d with
  | TextLineDataset _ => []
  | PaddedBatch src n shapes pads => batch_stages src ++ [(n, shapes, pads)]
  | Map src _ _ | Shuffle src _ _ | Prefetch src _ => batch_stages src
  | Zip a b => batch_stages a ++ batch_stages b
  end.

Fixpoint prefetch_stages (d : dataset) : list value :=
  match d with
  | TextLineDataset _ => []
  | Prefetch src n => prefetch_stages src ++ [n]
  | Map src _ _ | Shuffle src _ _ | PaddedBatch src _ _ _ =>
      prefetch_stages src
  | Zip a b => prefetch_stages a ++ prefetch_stages b
  end.

(** The pipeline as the specification lists it: read the two line
    streams, map each, zip, shuffle when the flag is set, pad and
    batch, prefetch. *)
Module Pipeline.

Definition read_texts (self : Dataset) : dataset :=
  TextLineDataset (texts self).

Definition read_targets (self : Dataset) : dataset :=
  TextLineDataset (targets self).

Definition mapped_texts (self : Dataset) : dataset :=
  Map (read_texts self) (process_text (word_table self)) (threads self).

Definition mapped_targets (self : Dataset) : dataset :=
  Map (read_targets self) (process_target (tag_table self)) (threads self).

Definition zipped (self : Dataset) : dataset :=
  Zip (mapped_texts self) (mapped_targets self).

Definition shuffled (self : Dataset) : dataset :=
  if truthy (shuffle self)
  then Shuffle (zipped self) (buffer_size self) (seed self)
  else zipped self.

Definition text_shape : TensorShape := {| dims := [None] |}.
Definition target_shape : TensorShape := {| dims := [None; None] |}.
Definition zero : Constant := {| const_value := 0; const_dtype := tf_int64 |}.

Definition batched (self : Dataset) : dataset :=
  PaddedBatch (shuffled self) (batch_size self)
    (text_shape, target_shape) (zero, zero).

Definition prefetched (self : Dataset) : dataset :=
  Prefetch (batched self) (prefetch self).

(** The requests that build it, in the specification's order. *)
Definition steps (self : Dataset) : list call :=
  [NewDataset (read_texts self); NewDataset (read_targets self);
   NewDataset (mapped_texts self); NewDataset (mapped_targets self);
   NewDataset (zipped self)]
  ++ (if truthy (shuffle self) then [NewDataset (shuffled self)] else [])
  ++ [NewShape text_shape; NewShape target_shape;
      NewConstant zero; NewConstant zero;
      NewDataset (batched self); NewDataset (prefetched self)].

End Pipeline.

(** Requests made one after the other, up to the first the framework
    refuses: the requests made, and the exception if there was one. *)
Fixpoint attempt (raises : call -> option string) (cs : list call)
  : list call * option string :=
  match cs with
  | [] => ([], None)
  | c :: rest =>
      match raises c with
      | Some e => ([c], Some e)
      | None => let (log, r) := attempt raises rest in (c :: log, r)
      end
  end.

(** A loader as the constructor's defaults would leave it. *)
Definition sample_loader : Dataset :=
  {| texts := PyList [PyStr "train.txt"];
     targets := PyList [PyStr "train.tags"];
     batch_size := Defaults.batch_size;
     shuffle := Defaults.shuffle;
     seed := Defaults.seed;
     threads := Defaults.threads;
     prefetch := Defaults.prefetch;
     name := Defaults.name;
     word_table := vocabulary_table (PyStr "words.vocab");
     tag_table := vocabulary_table (PyStr "tags.vocab");
     buffer_size := Defaults.buffer_size |}.

(** The requests the constructor makes for its two tables, in order. *)
Definition lookup_requests (word_table tag_table : value) : list call :=
  [NewInitializer (vocabulary_initializer word_table);
   NewTable (vocabulary_table word_table);
   NewInitializer (vocabulary_initializer tag_table);
   NewTable (vocabulary_table tag_table)].

(** Requests that concern a lookup table rather than the pipeline. *)
Definition is_lookup_request (c : call) : bool :=
  match c with
  | NewInitializer _ | NewTable _ => true
  | NewShape _ | NewConstant _ | NewDataset _ => false
  end.

(** A framework that cannot load any vocabulary file, and one that
    rejects every shuffle. *)
Definition refuse_tables : call -> option string :=
  fun c => match c with
           | NewTable _ => Some "NotFoundError"
           | _ => None
           end.

Definition refuse_shuffle : call -> option string :=
  fun c => match c with
           | NewDataset (Shuffle _ _ _) => Some "InvalidArgumentError"
           | _ => None
           end.

(** Two runs that differ at most in the value returned: the same
    requests, and either the same exception or a value each. *)
Definition same_effect {A} (m1 m2 : M A) : Prop :=
  log_of m1 = log_of m2 /\
  match outcome m1, outcome m2 with
  | inl e1, inl e2 => e1 = e2
  | inr _, inr _ => True
  | _, _ => False
  end.

(* ================================================================== *)
(** ** The monad *)

Section MonadFacts.

Context {A B : Type}.

Lemma bind_ret_l (a : A) (k : A -> M B) : bind (ret a) k = k a.
Proof. unfold bind, ret. destruct (k a). reflexivity. Qed.

Lemma bind_returns (m : M A) (k : A -> M B) (b : B) :
  returns (bind m k) b -> exists a, returns m a /\ returns (k a) b.
Proof.
  unfold returns, outcome, bind.
  destruct m as [log [e | a]]; simpl; [discriminate |].
  destruct (k a) as [log' r] eqn:E; simpl. intros ->.
  exists a. rewrite E. auto.
Qed.

Lemma bind_raised (m : M A) (k : A -> M B) (e : exn) :
  raised (bind m k) e <->
  raised m e \/ exists a, returns m a /\ raised (k a) e.
Proof.
  unfold raised, returns, outcome, bind.
  destruct m as [log [e' | a]]; simpl.
  - split.
    + intros [= ->]. now left.
    + intros [[= ->] | [a [H _]]]; [reflexivity | discriminate H].
  - destruct (k a) as [log' r] eqn:E; simpl. split.
    + intros ->. right. exists a. rewrite E. auto.
    + intros [H | [a' [H H']]]; [discriminate |].
      injection H as <-. rewrite E in H'. exact H'.
Qed.

End MonadFacts.

Lemma ret_returns {A} (a b : A) : returns (ret a) b -> a = b.
Proof. unfold returns, outcome, ret. simpl. congruence. Qed.

(** No name of the constructor's scope is spelled [text]. *)
Lemma load_name_unbound scope n :
  ~ In n (map fst scope) -> load_name scope n = raise (NameError n).
Proof.
  induction scope as [| [x v] rest IH]; simpl; intros Hn; [reflexivity |].
  destruct (String.eqb_spec x n) as [-> | _].
  - exfalso. apply Hn. now left.
  - apply IH. intros Hin. apply Hn. now right.
Qed.

(* ================================================================== *)
(** ** _create_lookup_table *)

Section LookupTable.

Variable raises : call -> option string.

(** Every run of [_create_lookup_table], by what the framework does
    with its two requests. *)
Lemma create_lookup_table_run file n :
  _create_lookup_table raises file n =
  match raises (NewInitializer (vocabulary_initializer file)) with
  | Some e =>
      ([NewInitializer (vocabulary_initializer file)],
       inl (FrameworkError e))
  | None =>
      ([NewInitializer (vocabulary_initializer file);
        NewTable (vocabulary_table file)],
       match raises (NewTable (vocabulary_table file)) with
       | Some e => inl (FrameworkError e)
       | None => inr (vocabulary_table file)
       end)
  end.
Proof.
  unfold _create_lookup_table, vocabulary_table, vocabulary_initializer.
  simpl.
  destruct (raises (NewInitializer _)); [reflexivity |].
  destruct (raises (NewTable _)); reflexivity.
Qed.

Lemma create_lookup_table_returns file n :
  raises (NewInitializer (vocabulary_initializer file)) = None ->
  raises (NewTable (vocabulary_table file)) = None ->
  _create_lookup_table raises file n =
  ([NewInitializer (vocabulary_initializer file);
    NewTable (vocabulary_table file)],
   inr (vocabulary_table file)).
Proof.
  intros Hi Ht. rewrite create_lookup_table_run, Hi, Ht. reflexivity.
Qed.

Lemma create_lookup_table_returns_inv file n t :
  returns (_create_lookup_table raises file n) t ->
  t = vocabulary_table file /\
  raises (NewInitializer (vocabulary_initializer file)) = None /\
  raises (NewTable (vocabulary_table file)) = None.
Proof.
  unfold returns, outcome. rewrite create_lookup_table_run.
  destruct (raises (NewInitializer _)); simpl; [discriminate |].
  destruct (raises (NewTable _)); simpl; [discriminate |].
  intros [= <-]. auto.
Qed.

Lemma create_lookup_table_raised file n e :
  raised (_create_lookup_table raises file n) e ->
  exists c msg, raises c = Some msg /\ e = FrameworkError msg.
Proof.
  unfold raised, outcome. rewrite create_lookup_table_run.
  destruct (raises (NewInitializer _)) as [m |] eqn:Hi; simpl.
  - intros [= <-]. eauto.
  - destruct (raises (NewTable _)) as [m |] eqn:Ht; simpl; [| discriminate].
    intros [= <-]. eauto.
Qed.

End LookupTable.

(** C1.  Whatever path [_create_lookup_table] is given, the table it
    returns is a static vocabulary table initialised from that very
    file: the key is the whole line, read as a string; the value is the
    line number, as a 64-bit integer; lines are separated by a line
    feed; and the table has out-of-vocabulary buckets, so that unknown
    keys are answered with a bucket id. *)
Theorem create_lookup_table_from_file raises file n t :
  returns (_create_lookup_table raises file n) t ->
  filename (initializer t) = file /\
  key_dtype (initializer t) = tf_string /\
  key_index (initializer t) = WHOLE_LINE /\
  value_dtype (initializer t) = tf_int64 /\
  value_index (initializer t) = LINE_NUMBER /\
  delimiter (initializer t) = newline /\
  0 < num_oov_buckets t.
Proof.
  intros H. apply create_lookup_table_returns_inv in H.
  destruct H as [-> _]. simpl. repeat split; reflexivity.
Qed.

Lemma create_lookup_table_from_file_witness :
  returns (_create_lookup_table lenient (PyStr "words.txt") (PyInt 1))
    (vocabulary_table (PyStr "words.txt")) /\
  filename (initializer (vocabulary_table (PyStr "words.txt")))
  = PyStr "words.txt".
Proof.
  split; [reflexivity |].
  apply (create_lookup_table_from_file lenient (PyStr "words.txt") (PyInt 1)).
  reflexivity.
Defined.

(** C8.  The [num_oov_buckets] argument of [_create_lookup_table] is
    ignored: two calls that differ only in it behave alike, the table
    requested from the framework has one out-of-vocabulary bucket, and
    so has the table returned. *)
Theorem num_oov_buckets_ignored raises file n m :
  _create_lookup_table raises file n = _create_lookup_table raises file m /\
  (forall t, In (NewTable t) (log_of (_create_lookup_table raises file n)) ->
             num_oov_buckets t = 1) /\
  (forall t, returns (_create_lookup_table raises file n) t ->
             num_oov_buckets t = 1).
Proof.
  split; [reflexivity |]. split; intros t H.
  - unfold log_of in H. rewrite create_lookup_table_run in H.
    destruct (raises (NewInitializer _)); simpl in H.
    + destruct H as [H | []]. discriminate H.
    + destruct H as [H | [H | []]]; [discriminate H |].
      injection H as <-. reflexivity.
  - apply create_lookup_table_returns_inv in H. destruct H as [-> _].
    reflexivity.
Qed.

Lemma num_oov_buckets_ignored_witness :
  _create_lookup_table lenient (PyStr "tags.txt") (PyInt 7) =
  _create_lookup_table lenient (PyStr "tags.txt") (PyInt 1) /\
  num_oov_buckets (vocabulary_table (PyStr "tags.txt")) = 1.
Proof.
  destruct (num_oov_buckets_ignored lenient (PyStr "tags.txt")
              (PyInt 7) (PyInt 1)) as [Heq [_ Hret]].
  split; [exact Heq |].
  apply Hret. reflexivity.
Defined.

(* ================================================================== *)
(** ** __init__ *)

Lemma assert_returns c msg u : returns (assert_ c msg) u -> c = true.
Proof. destruct c; [reflexivity | discriminate]. Qed.

Ltac invert_returns :=
  repeat match goal with
  | H : returns (bind _ _) _ |- _ =>
      apply bind_returns in H; destruct H as [? [? H]]
  | H : returns (ret _) _ |- _ => apply ret_returns in H; subst
  | H : returns (assert_ _ _) _ |- _ => apply assert_returns in H
  end.

Lemma chars_singleton s :
  chars s = [PyStr s] <-> String.length s = 1%nat.
Proof.
  destruct s as [| c [| c' s']]; simpl; unfold chars; simpl.
  - split; discriminate.
  - split; reflexivity.
  - split; discriminate.
Qed.

Section Constructor.

Variable raises : call -> option string.
Variables targets0 wt tt bs sh buf sd th pf nm : value.

Lemma normalise_targets :
  (if isinstance_str targets0 then py_list targets0 else ret targets0)
  = ret (normalised_targets targets0).
Proof. destruct targets0; reflexivity. Qed.

(** With [texts] a string, line 46 reads the unbound name [text]. *)
Lemma init_str_texts s :
  __init__ raises (PyStr s) targets0 wt tt bs sh buf sd th pf nm
  = ([], inl (NameError "text")).
Proof.
  unfold __init__. cbv beta zeta iota delta [isinstance_str].
  rewrite load_name_unbound.
  - reflexivity.
  - simpl. intros H.
    repeat (destruct H as [H | H]; [discriminate H |]). exact H.
Qed.

(** Otherwise the constructor is lines 48-69. *)
Lemma init_run texts0 :
  isinstance_str texts0 = false ->
  __init__ raises texts0 targets0 wt tt bs sh buf sd th pf nm =
  (assert_ (type_is_str wt) "Word table must be string type" ;;;
   word_table <- _create_lookup_table raises wt (PyInt 1) ;;
   assert_ (type_is_str tt) "Tag table must be string type" ;;;
   tag_table <- _create_lookup_table raises tt (PyInt 1) ;;
   buffer_size <- (if negb (truthy buf)
                   then py_mul_int bs 3
                   else ret buf) ;;
   ret (Build_Dataset texts0 (normalised_targets targets0) bs sh sd th
          pf nm word_table tag_table buffer_size)).
Proof.
  intros Ht. unfold __init__. rewrite Ht, normalise_targets.
  rewrite !bind_ret_l. reflexivity.
Qed.

(** What a returned loader holds. *)
Lemma init_returns_inv texts0 d :
  returns (__init__ raises texts0 targets0 wt tt bs sh buf sd th pf nm) d ->
  isinstance_str texts0 = false /\
  type_is_str wt = true /\ type_is_str tt = true /\
  word_table d = vocabulary_table wt /\
  tag_table d = vocabulary_table tt /\
  texts d = texts0 /\
  targets d = normalised_targets targets0 /\
  batch_size d = bs /\ shuffle d = sh /\ seed d = sd /\ threads d = th /\
  prefetch d = pf /\ name d = nm /\
  returns (if negb (truthy buf) then py_mul_int bs 3 else ret buf)
    (buffer_size d).
Proof.
  intros H.
  destruct (isinstance_str texts0) eqn:Ht.
  { destruct texts0; try discriminate Ht.
    rewrite init_str_texts in H. discriminate H. }
  rewrite (init_run _ Ht) in H. invert_returns. simpl.
  repeat match goal with
  | H : returns (_create_lookup_table _ _ _) _ |- _ =>
      apply create_lookup_table_returns_inv in H; destruct H as [-> _]
  end.
  repeat split; assumption.
Qed.

(** When the constructor runs to its end. *)
Lemma init_returns texts0 w t :
  isinstance_str texts0 = false ->
  wt = PyStr w -> tt = PyStr t ->
  raises (NewInitializer (vocabulary_initializer wt)) = None ->
  raises (NewTable (vocabulary_table wt)) = None ->
  raises (NewInitializer (vocabulary_initializer tt)) = None ->
  raises (NewTable (vocabulary_table tt)) = None ->
  truthy buf = true \/ (exists b, returns (py_mul_int bs 3) b) ->
  exists b,
    __init__ raises texts0 targets0 wt tt bs sh buf sd th pf nm =
    ([NewInitializer (vocabulary_initializer wt);
      NewTable (vocabulary_table wt);
      NewInitializer (vocabulary_initializer tt);
      NewTable (vocabulary_table tt)],
     inr (Build_Dataset texts0 (normalised_targets targets0) bs sh sd th
            pf nm (vocabulary_table wt) (vocabulary_table tt) b)).
Proof.
  intros Ht Hw Htt Hwi Hwt Hti Htt' Hb.
  rewrite (init_run _ Ht).
  rewrite (create_lookup_table_returns raises wt _ Hwi Hwt).
  rewrite (create_lookup_table_returns raises tt _ Hti Htt').
  subst wt tt. simpl.
  destruct (truthy buf) eqn:Hbuf; simpl.
  - eexists. reflexivity.
  - destruct Hb as [Hb | [b Hb]]; [discriminate Hb |].
    destruct bs; try (eexists; reflexivity); discriminate Hb.
Qed.

(** The only exceptions that leave the constructor: the unbound name,
    the two assertions, the one line 67's multiplication raised, and
    whatever the framework raised, unchanged. *)
Lemma init_raised_inv texts0 e :
  raised (__init__ raises texts0 targets0 wt tt bs sh buf sd th pf nm) e ->
  (isinstance_str texts0 = true /\ e = NameError "text") \/
  (type_is_str wt = false /\
   e = AssertionError "Word table must be string type") \/
  (type_is_str tt = false /\
   e = AssertionError "Tag table must be string type") \/
  (truthy buf = false /\ raised (py_mul_int bs 3) e /\
   exists msg, e = TypeError msg) \/
  (exists c msg, raises c = Some msg /\ e = FrameworkError msg).
Proof.
  intros H.
  destruct (isinstance_str texts0) eqn:Ht.
  { left. destruct texts0; try discriminate Ht.
    rewrite init_str_texts in H. injection H as <-. auto. }
  right. rewrite (init_run _ Ht) in H.
  apply bind_raised in H. destruct H as [H | [u [Hu H]]].
  { left. destruct (type_is_str wt); [discriminate H |].
    injection H as <-. auto. }
  right.
  apply bind_raised in H. destruct H as [H | [w [Hw H]]].
  { right. right. eapply create_lookup_table_raised. exact H. }
  apply bind_raised in H. destruct H as [H | [u' [Hu' H]]].
  { left. destruct (type_is_str tt); [discriminate H |].
    injection H as <-. auto. }
  right.
  apply bind_raised in H. destruct H as [H | [t [Hgt H]]].
  { right. eapply create_lookup_table_raised. exact H. }
  apply bind_raised in H. destruct H as [H | [b [Hb H]]]; [| discriminate H].
  left. destruct (truthy buf); simpl in H; [discriminate H |].
  split; [reflexivity |]. split; [exact H |].
  destruct bs; try discriminate H; injection H as <-; eauto.
Qed.

End Constructor.

(** C9.  A constructor call whose [texts] is a single string raises
    [NameError] for the name [text], before any request reaches the
    framework and whatever the other arguments are; such a call never
    returns a loader. *)
Theorem string_texts_raises_NameError
  raises s targets0 wt tt bs sh buf sd th pf nm :
  raised (__init__ raises (PyStr s) targets0 wt tt bs sh buf sd th pf nm)
    (NameError "text") /\
  log_of (__init__ raises (PyStr s) targets0 wt tt bs sh buf sd th pf nm)
  = [] /\
  forall d,
    ~ returns (__init__ raises (PyStr s) targets0 wt tt bs sh buf sd th pf nm)
        d.
Proof.
  rewrite init_str_texts. repeat split. intros d H. discriminate H.
Qed.

(** C10, as the code has it.  When [targets] is a single string, a
    returned loader stores the list of that string's characters; this
    list is the one-element list holding the path exactly when the
    path is one character long. *)
Theorem string_targets_split_into_chars
  raises texts0 s wt tt bs sh buf sd th pf nm d :
  returns (__init__ raises texts0 (PyStr s) wt tt bs sh buf sd th pf nm) d ->
  targets d = PyList (chars s) /\
  (targets d = PyList [PyStr s] <-> String.length s = 1%nat).
Proof.
  intros H. apply init_returns_inv in H.
  destruct H as (_ & _ & _ & _ & _ & _ & Htg & _).
  simpl in Htg. rewrite Htg. split; [reflexivity |].
  rewrite <- chars_singleton. split; [intros [= E]; exact E | intros ->].
  reflexivity.
Qed.

Lemma string_targets_split_into_chars_witness :
  exists d,
    returns (__init__default lenient (PyList [PyStr "train.txt"])
               (PyStr "tags") (PyStr "words.vocab") (PyStr "tags.vocab")) d /\
    targets d = PyList [PyStr "t"; PyStr "a"; PyStr "g"; PyStr "s"].
Proof.
  eexists. split; [reflexivity |].
  apply (string_targets_split_into_chars lenient
           (PyList [PyStr "train.txt"]) "tags" (PyStr "words.vocab")
           (PyStr "tags.vocab") Defaults.batch_size Defaults.shuffle
           Defaults.buffer_size Defaults.seed Defaults.threads
           Defaults.prefetch Defaults.name).
  reflexivity.
Defined.

(** C10 as stated fails for a one-character path: the stored list of
    characters is then the one-element list holding the path. *)
Lemma string_targets_one_char_counterexample :
  exists d,
    returns (__init__default lenient (PyList [PyStr "train.txt"])
               (PyStr "t") (PyStr "words.vocab") (PyStr "tags.vocab")) d /\
    ~ (targets d = PyList (chars "t") /\ targets d <> PyList [PyStr "t"]).
Proof.
  eexists. split; [reflexivity |].
  simpl. intros [_ H]. apply H. reflexivity.
Qed.

(** C4.  A returned loader's shuffle buffer size is the [buffer_size]
    argument when that is truthy, and [batch_size * 3] when it is falsy,
    as [None] and [0] are; the signature's default is 239, which is
    truthy, so a call that leaves [buffer_size] out shuffles with 239. *)
Theorem effective_buffer_size
  raises texts0 targets0 wt tt bs sh buf sd th pf nm d :
  returns (__init__ raises texts0 targets0 wt tt bs sh buf sd th pf nm) d ->
  (truthy buf = true -> buffer_size d = buf) /\
  (truthy buf = false -> returns (py_mul_int bs 3) (buffer_size d)) /\
  (truthy buf = false ->
   forall n, bs = PyInt n -> buffer_size d = PyInt (3 * n)) /\
  truthy PyNone = false /\ truthy (PyInt 0) = false /\
  Defaults.buffer_size = PyInt 239 /\ Defaults.buffer_size <> PyNone /\
  (buf = Defaults.buffer_size -> buffer_size d = PyInt 239).
Proof.
  intros H. apply init_returns_inv in H.
  destruct H as (_ & _ & _ & _ & _ & _ & _ & _ & _ & _ & _ & _ & _ & Hb).
  repeat split; try discriminate.
  - intros E. rewrite E in Hb. simpl in Hb. apply ret_returns in Hb. auto.
  - intros E. rewrite E in Hb. exact Hb.
  - intros E n ->. rewrite E in Hb. simpl in Hb. apply ret_returns in Hb.
    rewrite <- Hb. f_equal. lia.
  - intros ->. simpl in Hb. apply ret_returns in Hb. auto.
Qed.

Lemma effective_buffer_size_witness :
  exists d,
    returns (__init__ lenient (PyList [PyStr "train.txt"])
               (PyList [PyStr "train.tags"]) (PyStr "words.vocab")
               (PyStr "tags.vocab") (PyInt 16) (PyBool true) PyNone
               (PyInt 1997) (PyInt 4) (PyInt 1) (PyStr "loader")) d /\
    buffer_size d = PyInt 48.
Proof.
  eexists. split; [reflexivity |].
  destruct (effective_buffer_size lenient (PyList [PyStr "train.txt"])
              (PyList [PyStr "train.tags"]) (PyStr "words.vocab")
              (PyStr "tags.vocab") (PyInt 16) (PyBool true) PyNone
              (PyInt 1997) (PyInt 4) (PyInt 1) (PyStr "loader") _ eq_refl)
    as (_ & _ & Hfalsy & _).
  exact (Hfalsy eq_refl 16 eq_refl).
Defined.

(** Leaving aside a [texts] that is a single string: which calls end
    in an [AssertionError]. *)
Lemma init_asserts_iff
  raises texts0 targets0 wt tt bs sh buf sd th pf nm :
  isinstance_str texts0 = false ->
  (exists msg,
     raised (__init__ raises texts0 targets0 wt tt bs sh buf sd th pf nm)
       (AssertionError msg)) <->
  (type_is_str wt = false \/
   (type_is_str tt = false /\
    raises (NewInitializer (vocabulary_initializer wt)) = None /\
    raises (NewTable (vocabulary_table wt)) = None)).
Proof.
  intros Ht. rewrite (init_run raises _ _ _ _ _ _ _ _ _ _ _ Ht).
  destruct (type_is_str wt) eqn:Hw.
  2:{ split; [auto |]. intros _. eexists. reflexivity. }
  simpl assert_. rewrite bind_ret_l.
  rewrite (create_lookup_table_run raises wt).
  destruct (raises (NewInitializer (vocabulary_initializer wt))) eqn:Hi.
  { split.
    - intros [msg H]. discriminate H.
    - intros [H | [_ [H _]]]; discriminate H. }
  destruct (raises (NewTable (vocabulary_table wt))) eqn:Htb.
  { split.
    - intros [msg H]. discriminate H.
    - intros [H | [_ [_ H]]]; discriminate H. }
  destruct (type_is_str tt) eqn:Htt.
  2:{ split; [auto |]. intros _. eexists. reflexivity. }
  split; [| intros [H | [H _]]; discriminate H].
  intros [msg H]. exfalso. revert H.
  unfold raised, outcome, bind; simpl.
  rewrite (create_lookup_table_run raises tt).
  destruct (raises (NewInitializer (vocabulary_initializer tt))); simpl;
    [discriminate |].
  destruct (raises (NewTable (vocabulary_table tt))); simpl;
    [discriminate |].
  destruct (negb (truthy buf)); [destruct bs |]; discriminate.
Qed.

(** C3, as the code has it.  Leaving aside a [texts] that is a single
    string, the constructor raises an [AssertionError] exactly when
    [word_table] is not a string, or [tag_table] is not a string and
    the framework raised nothing while the word table was built: the
    assertion on [tag_table] is only reached after that.  The class
    checks nothing else and handles no error: any other exception that
    leaves the constructor is the one the framework raised, unchanged,
    or the [TypeError] that [batch_size * 3] raised on line 67, which
    is only evaluated when [buffer_size] is falsy. *)
Theorem assertion_raised_iff
  raises texts0 targets0 wt tt bs sh buf sd th pf nm :
  isinstance_str texts0 = false ->
  ((exists msg,
      raised (__init__ raises texts0 targets0 wt tt bs sh buf sd th pf nm)
        (AssertionError msg)) <->
   (type_is_str wt = false \/
    (type_is_str tt = false /\
     raises (NewInitializer (vocabulary_initializer wt)) = None /\
     raises (NewTable (vocabulary_table wt)) = None))) /\
  (forall e,
     raised (__init__ raises texts0 targets0 wt tt bs sh buf sd th pf nm) e ->
     (type_is_str wt = false /\
      e = AssertionError "Word table must be string type") \/
     (type_is_str tt = false /\
      e = AssertionError "Tag table must be string type") \/
     (truthy buf = false /\ raised (py_mul_int bs 3) e /\
      exists msg, e = TypeError msg) \/
     (exists c msg, raises c = Some msg /\ e = FrameworkError msg)).
Proof.
  intros Ht. split; [now apply init_asserts_iff |].
  intros e H. apply init_raised_inv in H.
  destruct H as [[Hs _] | H]; [congruence | exact H].
Qed.

Lemma assertion_raised_iff_witness :
  isinstance_str (PyList [PyStr "train.txt"]) = false /\
  exists msg,
    raised (__init__default lenient (PyList [PyStr "train.txt"])
              (PyList [PyStr "train.tags"]) (PyStr "words.vocab") (PyInt 3))
      (AssertionError msg).
Proof.
  split; [reflexivity |].
  apply (proj1 (assertion_raised_iff lenient (PyList [PyStr "train.txt"])
           (PyList [PyStr "train.tags"]) (PyStr "words.vocab") (PyInt 3)
           Defaults.batch_size Defaults.shuffle Defaults.buffer_size
           Defaults.seed Defaults.threads Defaults.prefetch Defaults.name
           eq_refl)).
  right. repeat split.
Defined.

(** C3 as stated fails by the order of lines 59-62: with [texts] a
    list, [word_table] a path the framework cannot load and
    [tag_table] [None], [tag_table] is not a string, yet the
    constructor raises the framework's exception, met while the word
    table was built, and no [AssertionError]. *)
Lemma assertion_iff_counterexample :
  __init__default refuse_tables (PyList [PyStr "train.txt"])
    (PyList [PyStr "train.tags"]) (PyStr "words.vocab") PyNone
  = ([NewInitializer (vocabulary_initializer (PyStr "words.vocab"));
      NewTable (vocabulary_table (PyStr "words.vocab"))],
     inl (FrameworkError "NotFoundError")) /\
  ~ ((exists msg,
        raised (__init__default refuse_tables (PyList [PyStr "train.txt"])
                  (PyList [PyStr "train.tags"]) (PyStr "words.vocab") PyNone)
          (AssertionError msg)) <->
     (type_is_str (PyStr "words.vocab") = false \/
      type_is_str PyNone = false)).
Proof.
  split; [reflexivity |].
  intros [_ H]. destruct H as [msg H]; [right; reflexivity |].
  discriminate H.
Qed.

(** The slip of line 46 breaks C3 as well: with [texts] a string and
    [word_table] [None], the exception is [NameError]. *)
Lemma string_texts_preempts_assertions :
  ~ ((exists msg,
        raised (__init__default lenient (PyStr "train.txt")
                  (PyList [PyStr "train.tags"]) PyNone (PyStr "tags.vocab"))
          (AssertionError msg)) <->
     (type_is_str PyNone = false \/ type_is_str (PyStr "tags.vocab") = false)).
Proof.
  intros [_ H]. destruct H as [msg H]; [left; reflexivity |].
  discriminate H.
Qed.

(** A framework exception on the word table comes before the
    assertion on [tag_table], and leaves the constructor unchanged. *)
Lemma framework_error_precedes_tag_assertion
  raises texts0 targets0 w tt bs sh buf sd th pf nm msg :
  isinstance_str texts0 = false ->
  raises (NewInitializer (vocabulary_initializer (PyStr w))) = None ->
  raises (NewTable (vocabulary_table (PyStr w))) = Some msg ->
  raised (__init__ raises texts0 targets0 (PyStr w) tt bs sh buf sd th pf nm)
    (FrameworkError msg).
Proof.
  intros Ht Hi Htb. rewrite (init_run raises _ _ _ _ _ _ _ _ _ _ _ Ht).
  simpl assert_. rewrite bind_ret_l, create_lookup_table_run, Hi, Htb.
  reflexivity.
Qed.

(* ================================================================== *)
(** ** _process and __call__ *)

Lemma attempt_granted raises cs :
  Forall (fun c => raises c = None) cs -> attempt raises cs = (cs, None).
Proof.
  induction 1 as [| c rest Hc _ IH]; simpl; [reflexivity |].
  rewrite Hc, IH. reflexivity.
Qed.

Lemma attempt_log_prefix raises cs :
  exists rest, cs = (fst (attempt raises cs) ++ rest)%list.
Proof.
  induction cs as [| c cs [rest IH]]; simpl.
  - exists []. reflexivity.
  - destruct (raises c); simpl.
    + exists cs. reflexivity.
    + destruct (attempt raises cs) as [log r]. simpl in *.
      exists rest. now rewrite <- IH.
Qed.

Lemma attempt_refused raises cs e :
  snd (attempt raises cs) = Some e -> exists c, In c cs /\ raises c = Some e.
Proof.
  induction cs as [| c cs IH]; simpl; [discriminate |].
  destruct (raises c) as [e' |] eqn:Hc; simpl.
  - intros [= <-]. exists c. auto.
  - destruct (attempt raises cs) as [log r]. simpl in *.
    intros H. destruct (IH H) as [c' [Hin Hc']]. exists c'. auto.
Qed.

Lemma attempt_all_granted raises cs :
  snd (attempt raises cs) = None -> Forall (fun c => raises c = None) cs.
Proof.
  induction cs as [| c cs IH]; simpl; [constructor |].
  destruct (raises c) eqn:Hc; simpl; [discriminate |].
  destruct (attempt raises cs) as [log r]. simpl in *.
  intros H. constructor; auto.
Qed.

(** Every run of [__call__]: the requests of [Pipeline.steps] are made
    in that order until the framework refuses one; if it refuses none,
    the pipeline is returned. *)
Lemma call_run raises self :
  __call__ raises self =
  (fst (attempt raises (Pipeline.steps self)),
   match snd (attempt raises (Pipeline.steps self)) with
   | Some e => inl (FrameworkError e)
   | None => inr (Pipeline.prefetched self)
   end).
Proof.
  unfold __call__, _process, Pipeline.steps, Pipeline.prefetched,
    Pipeline.batched, Pipeline.shuffled, Pipeline.zipped,
    Pipeline.mapped_targets, Pipeline.mapped_texts, Pipeline.read_targets,
    Pipeline.read_texts, Pipeline.text_shape, Pipeline.target_shape,
    Pipeline.zero.
  destruct (truthy (shuffle self)); simpl;
    repeat match goal with
    | |- context [raises ?c] => destruct (raises c); simpl; try reflexivity
    end.
Qed.

Lemma call_returns_inv raises self p :
  returns (__call__ raises self) p ->
  p = Pipeline.prefetched self /\
  Forall (fun c => raises c = None) (Pipeline.steps self).
Proof.
  unfold returns, outcome. rewrite call_run. cbn [snd].
  destruct (snd (attempt raises (Pipeline.steps self))) eqn:E;
    [discriminate |].
  intros [= <-]. split; [reflexivity |]. now apply attempt_all_granted.
Qed.

(** [__call__] raises nothing of its own: an exception that leaves it
    is the one the framework raised on one of the steps. *)
Lemma call_raised_inv raises self e :
  raised (__call__ raises self) e ->
  exists c msg,
    In c (Pipeline.steps self) /\ raises c = Some msg /\
    e = FrameworkError msg.
Proof.
  unfold raised, outcome. rewrite call_run. cbn [snd].
  destruct (snd (attempt raises (Pipeline.steps self))) as [msg |] eqn:E;
    [| discriminate].
  intros [= <-]. destruct (attempt_refused _ _ _ E) as [c [Hin Hc]].
  exists c, msg. auto.
Qed.

(** C2.  Calling a loader makes the framework requests of the
    pipeline in this order and returns the last one: the text lines
    and the target lines are read, each stream is mapped, the two
    mapped streams are zipped, the zipped stream is shuffled when, and
    only when, the shuffle flag is truthy, and then with the loader's
    buffer size and seed, the result is padded and batched, and the
    batches are prefetched. *)
Theorem call_assembles_in_order raises self :
  Forall (fun c => raises c = None) (Pipeline.steps self) ->
  __call__ raises self = (Pipeline.steps self, inr (Pipeline.prefetched self))
  /\ line_readers (Pipeline.prefetched self) = [texts self; targets self]
  /\ map_stages (Pipeline.prefetched self)
     = [(process_text (word_table self), threads self);
        (process_target (tag_table self), threads self)]
  /\ shuffle_stages (Pipeline.prefetched self)
     = (if truthy (shuffle self)
        then [(buffer_size self, seed self)] else [])
  /\ exists zipped,
       zipped = Zip (Map (TextLineDataset (texts self))
                       (process_text (word_table self)) (threads self))
                    (Map (TextLineDataset (targets self))
                       (process_target (tag_table self)) (threads self))
       /\ Pipeline.prefetched self
          = Prefetch
              (PaddedBatch
                 (if truthy (shuffle self)
                  then Shuffle zipped (buffer_size self) (seed self)
                  else zipped)
                 (batch_size self)
                 ({| dims := [None] |}, {| dims := [None; None] |})
                 ({| const_value := 0; const_dtype := tf_int64 |},
                  {| const_value := 0; const_dtype := tf_int64 |}))
              (prefetch self).
Proof.
  intros Hg. split.
  { rewrite call_run, (attempt_granted _ _ Hg). reflexivity. }
  unfold Pipeline.prefetched, Pipeline.batched, Pipeline.shuffled.
  destruct (truthy (shuffle self)); simpl; repeat split; eauto.
Qed.

Lemma call_assembles_in_order_witness :
  Forall (fun c => lenient c = None) (Pipeline.steps sample_loader) /\
  __call__ lenient sample_loader
  = (Pipeline.steps sample_loader, inr (Pipeline.prefetched sample_loader)).
Proof.
  assert (Hg : Forall (fun c => lenient c = None)
                 (Pipeline.steps sample_loader))
    by (apply Forall_forall; reflexivity).
  split; [exact Hg |].
  exact (proj1 (call_assembles_in_order lenient sample_loader Hg)).
Defined.

(** C5.  What a called loader batches is the stream of pairs made by
    zipping the mapped texts (token ids) with the mapped targets (tag
    labels), shuffled or not: the pairs are grouped [batch_size] at a
    time, the first component padded along one unknown dimension and
    the second along two, both with the 64-bit integer 0.  The batches
    are what the pipeline yields, the prefetch being the only stage
    after them, and nothing upstream batches.  The pipeline is
    returned whenever the framework grants its steps. *)
Theorem batches_are_padded raises self :
  let pairs :=
    Zip (Map (TextLineDataset (texts self))
           (process_text (word_table self)) (threads self))
        (Map (TextLineDataset (targets self))
           (process_target (tag_table self)) (threads self)) in
  let batched :=
    PaddedBatch
      (if truthy (shuffle self)
       then Shuffle pairs (buffer_size self) (seed self)
       else pairs)
      (batch_size self)
      ({| dims := [None] |}, {| dims := [None; None] |})
      ({| const_value := 0; const_dtype := tf_int64 |},
       {| const_value := 0; const_dtype := tf_int64 |}) in
  (Forall (fun c => raises c = None) (Pipeline.steps self) ->
   returns (__call__ raises self) (Prefetch batched (prefetch self))) /\
  (forall p,
     returns (__call__ raises self) p ->
     p = Prefetch batched (prefetch self) /\
     batch_stages p
     = [(batch_size self,
         ({| dims := [None] |}, {| dims := [None; None] |}),
         ({| const_value := 0; const_dtype := tf_int64 |},
          {| const_value := 0; const_dtype := tf_int64 |}))]).
Proof.
  intros pairs batched. split.
  - intros Hg. unfold returns, outcome.
    rewrite call_run, (attempt_granted _ _ Hg). reflexivity.
  - intros p H. apply call_returns_inv in H. destruct H as [-> _].
    subst batched pairs.
    unfold Pipeline.prefetched, Pipeline.batched, Pipeline.shuffled,
      Pipeline.zipped, Pipeline.mapped_texts, Pipeline.mapped_targets,
      Pipeline.read_texts, Pipeline.read_targets, Pipeline.text_shape,
      Pipeline.target_shape, Pipeline.zero.
    destruct (truthy (shuffle self)); split; reflexivity.
Qed.

Lemma batches_are_padded_witness :
  Forall (fun c => lenient c = None) (Pipeline.steps sample_loader) /\
  returns (__call__ lenient sample_loader)
    (Prefetch
       (PaddedBatch
          (Shuffle
             (Zip (Map (TextLineDataset (PyList [PyStr "train.txt"]))
                     (process_text (vocabulary_table (PyStr "words.vocab")))
                     (PyInt 4))
                  (Map (TextLineDataset (PyList [PyStr "train.tags"]))
                     (process_target (vocabulary_table (PyStr "tags.vocab")))
                     (PyInt 4)))
             (PyInt 239) (PyInt 1997))
          (PyInt 16)
          ({| dims := [None] |}, {| dims := [None; None] |})
          ({| const_value := 0; const_dtype := tf_int64 |},
           {| const_value := 0; const_dtype := tf_int64 |}))
       (PyInt 1)).
Proof.
  assert (Hg : Forall (fun c => lenient c = None)
                 (Pipeline.steps sample_loader))
    by (apply Forall_forall; reflexivity).
  split; [exact Hg |].
  exact (proj1 (batches_are_padded lenient sample_loader) Hg).
Defined.

(** C6.  In a returned pipeline both map stages were given the
    loader's [threads] as their number of parallel calls, and the one
    prefetch stage was given the loader's [prefetch]; every request the
    call made, returned or not, is one of the pipeline's steps. *)
Theorem parallelism_and_prefetch_passed_through raises self :
  (forall c, In c (log_of (__call__ raises self)) ->
             In c (Pipeline.steps self)) /\
  (forall p, returns (__call__ raises self) p ->
     map_stages p
     = [(process_text (word_table self), threads self);
        (process_target (tag_table self), threads self)] /\
     prefetch_stages p = [prefetch self]).
Proof.
  split.
  - intros c Hin. unfold log_of in Hin. rewrite call_run in Hin.
    cbn [fst] in Hin.
    destruct (attempt_log_prefix raises (Pipeline.steps self)) as [rest E].
    rewrite E. apply in_or_app. now left.
  - intros p H. apply call_returns_inv in H. destruct H as [-> _].
    unfold Pipeline.prefetched, Pipeline.batched, Pipeline.shuffled.
    destruct (truthy (shuffle self)); simpl; split; reflexivity.
Qed.

Lemma parallelism_and_prefetch_passed_through_witness :
  returns (__call__ lenient sample_loader) (Pipeline.prefetched sample_loader)
  /\ map_stages (Pipeline.prefetched sample_loader)
     = [(process_text (vocabulary_table (PyStr "words.vocab")), PyInt 4);
        (process_target (vocabulary_table (PyStr "tags.vocab")), PyInt 4)]
  /\ prefetch_stages (Pipeline.prefetched sample_loader) = [PyInt 1].
Proof.
  split; [reflexivity |].
  exact (proj2 (parallelism_and_prefetch_passed_through lenient sample_loader)
           (Pipeline.prefetched sample_loader) eq_refl).
Defined.

(* ================================================================== *)
(** ** The constructor and the call together *)

Lemma attempt_first_refusal raises cs msg :
  snd (attempt raises cs) = Some msg ->
  exists granted c rest,
    cs = (granted ++ c :: rest)%list /\
    fst (attempt raises cs) = (granted ++ [c])%list /\
    Forall (fun c' => raises c' = None) granted /\
    raises c = Some msg.
Proof.
  induction cs as [| c cs IH]; simpl; [discriminate |].
  destruct (raises c) as [m |] eqn:Hc; simpl.
  - intros [= <-]. exists [], c, cs. repeat split; auto.
  - destruct (attempt raises cs) as [log r]. simpl in *.
    intros H. destruct (IH H) as (granted & c' & rest & -> & -> & Hg & Hc').
    exists (c :: granted), c', rest. repeat split; auto.
Qed.

(** Every run of the constructor on a [texts] that is not a string and
    two table paths that are strings. *)
Lemma init_run_strings raises texts0 targets0 w t bs sh buf sd th pf nm :
  isinstance_str texts0 = false ->
  __init__ raises texts0 targets0 (PyStr w) (PyStr t) bs sh buf sd th pf nm =
  (fst (attempt raises (lookup_requests (PyStr w) (PyStr t))),
   match snd (attempt raises (lookup_requests (PyStr w) (PyStr t))) with
   | Some msg => inl (FrameworkError msg)
   | None =>
       match outcome (if negb (truthy buf)
                      then py_mul_int bs 3 else ret buf) with
       | inl e => inl e
       | inr b =>
           inr (Build_Dataset texts0 (normalised_targets targets0) bs sh sd
                  th pf nm (vocabulary_table (PyStr w))
                  (vocabulary_table (PyStr t)) b)
       end
   end).
Proof.
  intros Ht. rewrite (init_run raises _ _ _ _ _ _ _ _ _ _ _ Ht).
  unfold lookup_requests. simpl assert_. rewrite !bind_ret_l.
  rewrite !create_lookup_table_run. simpl attempt.
  destruct (raises (NewInitializer (vocabulary_initializer (PyStr w))));
    [reflexivity |].
  destruct (raises (NewTable (vocabulary_table (PyStr w))));
    [reflexivity |].
  simpl.
  destruct (raises (NewInitializer (vocabulary_initializer (PyStr t))));
    [reflexivity |].
  destruct (raises (NewTable (vocabulary_table (PyStr t))));
    [reflexivity |].
  simpl.
  destruct (negb (truthy buf)); [destruct bs |]; reflexivity.
Qed.

Lemma init_log_prefix raises texts0 targets0 wt tt bs sh buf sd th pf nm :
  exists rest,
    lookup_requests wt tt =
    (log_of (__init__ raises texts0 targets0 wt tt bs sh buf sd th pf nm)
     ++ rest)%list.
Proof.
  destruct (isinstance_str texts0) eqn:Ht.
  { destruct texts0; try discriminate Ht. rewrite init_str_texts.
    eexists. reflexivity. }
  destruct (type_is_str wt) eqn:Hw.
  2:{ rewrite (init_run raises _ _ _ _ _ _ _ _ _ _ _ Ht), Hw.
      eexists. reflexivity. }
  destruct wt as [| | | w | | |]; try discriminate Hw.
  destruct (type_is_str tt) eqn:Htt.
  - destruct tt as [| | | t | | |]; try discriminate Htt.
    rewrite (init_run_strings _ _ _ _ _ _ _ _ _ _ _ _ Ht).
    apply attempt_log_prefix.
  - rewrite (init_run raises _ _ _ _ _ _ _ _ _ _ _ Ht), Htt.
    simpl assert_. rewrite bind_ret_l, create_lookup_table_run.
    unfold lookup_requests.
    destruct (raises (NewInitializer (vocabulary_initializer (PyStr w))));
      [eexists; reflexivity |].
    destruct (raises (NewTable (vocabulary_table (PyStr w))));
      eexists; reflexivity.
Qed.

(** The pipeline of a loader the constructor returned, in terms of the
    constructor's arguments. *)
Lemma constructed_then_called
  raises texts0 targets0 wt tt bs sh buf sd th pf nm d p :
  returns (__init__ raises texts0 targets0 wt tt bs sh buf sd th pf nm) d ->
  returns (__call__ raises d) p ->
  exists b,
    returns (if negb (truthy buf) then py_mul_int bs 3 else ret buf) b /\
    p = Pipeline.prefetched
          (Build_Dataset texts0 (normalised_targets targets0) bs sh sd th
             pf nm (vocabulary_table wt) (vocabulary_table tt) b).
Proof.
  intros Hi Hc. apply call_returns_inv in Hc. destruct Hc as [-> _].
  apply init_returns_inv in Hi.
  destruct Hi as (_ & _ & _ & Hw & Htt & Htx & Htg & Hbs & Hsh & Hsd & Hth
                  & Hpf & Hnm & Hb).
  exists (buffer_size d). split; [exact Hb |].
  destruct d; simpl in *. subst. reflexivity.
Qed.

Lemma truthy_times_three v b :
  returns (py_mul_int v 3) b -> truthy b = truthy v.
Proof.
  destruct v as [| [|] | z | s | l | items |]; simpl; intros H;
    try discriminate H; apply ret_returns in H; subst b; simpl;
    try reflexivity.
  - destruct (Z.eqb_spec (z * 3) 0), (Z.eqb_spec z 0); simpl; auto; lia.
  - change (Z.to_nat 3) with 3%nat. destruct s; reflexivity.
  - change (Z.to_nat 3) with 3%nat. destruct l; reflexivity.
Qed.

Lemma same_effect_ret {A} (a b : A) : same_effect (ret a) (ret b).
Proof. split; [reflexivity | exact I]. Qed.

Lemma same_effect_bind {A B} (m : M A) (k1 k2 : A -> M B) :
  (forall a, same_effect (k1 a) (k2 a)) ->
  same_effect (bind m k1) (bind m k2).
Proof.
  intros H. destruct m as [log [e | a]]; simpl.
  - split; reflexivity.
  - destruct (H a) as [Hl Ho]. unfold same_effect, log_of, outcome, bind.
    destruct (k1 a) as [l1 r1], (k2 a) as [l2 r2]. simpl in *.
    subst l2. split; [reflexivity | exact Ho].
Qed.

(** X1.  A loader the constructor returned, once called, reads the
    [texts] it was given and the normalised [targets] (the characters
    of the path, when [targets] was a single string); it maps the
    texts with the table built from [word_table] and the targets with
    the table built from [tag_table], both with [threads] parallel
    calls; it batches by [batch_size] and prefetches [prefetch]. *)
Theorem constructed_loader_wiring
  raises texts0 targets0 wt tt bs sh buf sd th pf nm d p :
  returns (__init__ raises texts0 targets0 wt tt bs sh buf sd th pf nm) d ->
  returns (__call__ raises d) p ->
  line_readers p = [texts0; normalised_targets targets0] /\
  (forall s, targets0 = PyStr s ->
             line_readers p = [texts0; PyList (chars s)]) /\
  map_stages p
  = [(process_text (vocabulary_table wt), th);
     (process_target (vocabulary_table tt), th)] /\
  batch_stages p
  = [(bs, ({| dims := [None] |}, {| dims := [None; None] |}),
      ({| const_value := 0; const_dtype := tf_int64 |},
       {| const_value := 0; const_dtype := tf_int64 |}))] /\
  prefetch_stages p = [pf].
Proof.
  intros Hi Hc.
  destruct (constructed_then_called _ _ _ _ _ _ _ _ _ _ _ _ _ _ Hi Hc)
    as (b & _ & ->).
  unfold Pipeline.prefetched, Pipeline.batched, Pipeline.shuffled.
  cbn [shuffle].
  destruct (truthy sh); simpl; repeat split; intros; subst; reflexivity.
Qed.

Lemma constructed_loader_wiring_witness :
  exists d p,
    returns (__init__default lenient (PyList [PyStr "train.txt"])
               (PyStr "tags") (PyStr "words.vocab") (PyStr "tags.vocab")) d /\
    returns (__call__ lenient d) p /\
    line_readers p
    = [PyList [PyStr "train.txt"];
       PyList [PyStr "t"; PyStr "a"; PyStr "g"; PyStr "s"]].
Proof.
  do 2 eexists. split; [reflexivity |]. split; [reflexivity |].
  exact (proj1 (constructed_loader_wiring lenient
                  (PyList [PyStr "train.txt"]) (PyStr "tags")
                  (PyStr "words.vocab") (PyStr "tags.vocab")
                  Defaults.batch_size Defaults.shuffle Defaults.buffer_size
                  Defaults.seed Defaults.threads Defaults.prefetch
                  Defaults.name _ _ eq_refl eq_refl)).
Defined.

(** X2.  A loader the constructor returned shuffles, once called,
    exactly when the [shuffle] argument was truthy; the shuffle is then
    given the [seed] argument and, as buffer size, the [buffer_size]
    argument when that was truthy and three times an integer
    [batch_size] otherwise. *)
Theorem constructed_loader_shuffle
  raises texts0 targets0 wt tt bs sh buf sd th pf nm d p :
  returns (__init__ raises texts0 targets0 wt tt bs sh buf sd th pf nm) d ->
  returns (__call__ raises d) p ->
  (truthy sh = false -> shuffle_stages p = []) /\
  (truthy sh = true -> truthy buf = true -> shuffle_stages p = [(buf, sd)]) /\
  (truthy sh = true -> truthy buf = false ->
   forall n, bs = PyInt n -> shuffle_stages p = [(PyInt (3 * n), sd)]).
Proof.
  intros Hi Hc.
  destruct (constructed_then_called _ _ _ _ _ _ _ _ _ _ _ _ _ _ Hi Hc)
    as (b & Hb & ->).
  unfold Pipeline.prefetched, Pipeline.batched, Pipeline.shuffled.
  cbn [shuffle]. repeat split.
  - intros ->. reflexivity.
  - intros -> E. rewrite E in Hb. apply ret_returns in Hb. subst b.
    reflexivity.
  - intros -> E n ->. rewrite E in Hb. simpl in Hb. apply ret_returns in Hb.
    subst b. cbn [shuffle_stages app]. rewrite (Z.mul_comm n 3).
    reflexivity.
Qed.

Lemma constructed_loader_shuffle_witness :
  exists d p,
    returns (__init__ lenient (PyList [PyStr "train.txt"])
               (PyList [PyStr "train.tags"]) (PyStr "words.vocab")
               (PyStr "tags.vocab") (PyInt 32) (PyInt 1) (PyInt 0)
               (PyInt 7) (PyInt 2) (PyInt 1) (PyStr "loader")) d /\
    returns (__call__ lenient d) p /\
    shuffle_stages p = [(PyInt 96, PyInt 7)].
Proof.
  do 2 eexists. split; [reflexivity |]. split; [reflexivity |].
  exact (proj2 (proj2 (constructed_loader_shuffle lenient
                         (PyList [PyStr "train.txt"])
                         (PyList [PyStr "train.tags"]) (PyStr "words.vocab")
                         (PyStr "tags.vocab") (PyInt 32) (PyInt 1) (PyInt 0)
                         (PyInt 7) (PyInt 2) (PyInt 1) (PyStr "loader")
                         _ _ eq_refl eq_refl))
           eq_refl eq_refl 32 eq_refl).
Defined.

(** X3.  A loader built from the four required arguments alone, once
    called, always shuffles, with buffer size 239 and seed 1997, maps
    with 4 parallel calls, batches by 16 and prefetches 1. *)
Theorem default_loader_pipeline raises texts0 targets0 wt tt d p :
  returns (__init__default raises texts0 targets0 wt tt) d ->
  returns (__call__ raises d) p ->
  shuffle_stages p = [(PyInt 239, PyInt 1997)] /\
  map_stages p
  = [(process_text (vocabulary_table wt), PyInt 4);
     (process_target (vocabulary_table tt), PyInt 4)] /\
  (exists shapes pads, batch_stages p = [(PyInt 16, shapes, pads)]) /\
  prefetch_stages p = [PyInt 1].
Proof.
  intros Hi Hc. unfold __init__default in Hi.
  destruct (constructed_then_called _ _ _ _ _ _ _ _ _ _ _ _ _ _ Hi Hc)
    as (b & Hb & ->).
  simpl in Hb. apply ret_returns in Hb. subst b.
  repeat split. do 2 eexists. reflexivity.
Qed.

Lemma default_loader_pipeline_witness :
  exists d p,
    returns (__init__default lenient (PyList [PyStr "train.txt"])
               (PyList [PyStr "train.tags"]) (PyStr "words.vocab")
               (PyStr "tags.vocab")) d /\
    returns (__call__ lenient d) p /\
    shuffle_stages p = [(PyInt 239, PyInt 1997)].
Proof.
  do 2 eexists. split; [reflexivity |]. split; [reflexivity |].
  exact (proj1 (default_loader_pipeline lenient
                  (PyList [PyStr "train.txt"]) (PyList [PyStr "train.tags"])
                  (PyStr "words.vocab") (PyStr "tags.vocab")
                  _ _ eq_refl eq_refl)).
Defined.

(** X4.  The constructor returns a loader exactly when [texts] is not
    a string, [word_table] and [tag_table] are strings, the framework
    grants the four table requests, and [buffer_size] is truthy or
    [batch_size * 3] evaluates without raising. *)
Theorem init_returns_iff
  raises texts0 targets0 wt tt bs sh buf sd th pf nm :
  (exists d,
     returns (__init__ raises texts0 targets0 wt tt bs sh buf sd th pf nm) d)
  <->
  (isinstance_str texts0 = false /\
   type_is_str wt = true /\ type_is_str tt = true /\
   Forall (fun c => raises c = None) (lookup_requests wt tt) /\
   (truthy buf = true \/ exists b, returns (py_mul_int bs 3) b)).
Proof.
  split.
  - intros [d H].
    destruct (isinstance_str texts0) eqn:Ht.
    { destruct texts0; try discriminate Ht.
      rewrite init_str_texts in H. discriminate H. }
    rewrite (init_run raises _ _ _ _ _ _ _ _ _ _ _ Ht) in H.
    invert_returns.
    repeat match goal with
    | H : returns (_create_lookup_table _ _ _) _ |- _ =>
        apply create_lookup_table_returns_inv in H;
        destruct H as (-> & ? & ?)
    end.
    repeat split; try assumption.
    + unfold lookup_requests. repeat constructor; assumption.
    + destruct (truthy buf); [now left | right].
      eexists. eassumption.
  - intros (Ht & Hw & Htt & Hg & Hb).
    destruct wt as [| | | w | | |]; try discriminate Hw.
    destruct tt as [| | | t | | |]; try discriminate Htt.
    unfold lookup_requests in Hg.
    inversion Hg as [| ? ? H1 Hg1]; subst.
    inversion Hg1 as [| ? ? H2 Hg2]; subst.
    inversion Hg2 as [| ? ? H3 Hg3]; subst.
    inversion Hg3 as [| ? ? H4 _]; subst.
    destruct (init_returns raises targets0 (PyStr w) (PyStr t) bs sh buf sd
                th pf nm texts0 w t Ht eq_refl eq_refl H1 H2 H3 H4 Hb)
      as [b E].
    eexists. unfold returns. rewrite E. reflexivity.
Qed.

(** X5.  With [texts] not a string: a [word_table] that is not a
    string is rejected before anything is asked of the framework; a
    [tag_table] that is not a string is rejected only after the word
    table has been built, with exactly those two requests made. *)
Theorem assertions_and_requests_in_order
  raises texts0 targets0 wt tt bs sh buf sd th pf nm :
  isinstance_str texts0 = false ->
  (type_is_str wt = false ->
   __init__ raises texts0 targets0 wt tt bs sh buf sd th pf nm
   = ([], inl (AssertionError "Word table must be string type"))) /\
  (type_is_str wt = true -> type_is_str tt = false ->
   raises (NewInitializer (vocabulary_initializer wt)) = None ->
   raises (NewTable (vocabulary_table wt)) = None ->
   __init__ raises texts0 targets0 wt tt bs sh buf sd th pf nm
   = ([NewInitializer (vocabulary_initializer wt);
       NewTable (vocabulary_table wt)],
      inl (AssertionError "Tag table must be string type"))).
Proof.
  intros Ht. rewrite (init_run raises _ _ _ _ _ _ _ _ _ _ _ Ht). split.
  - intros ->. reflexivity.
  - intros -> -> Hi Htb. simpl assert_.
    rewrite bind_ret_l, create_lookup_table_run, Hi, Htb. reflexivity.
Qed.

Lemma assertions_and_requests_in_order_witness :
  isinstance_str (PyList [PyStr "train.txt"]) = false /\
  __init__default lenient (PyList [PyStr "train.txt"])
    (PyList [PyStr "train.tags"]) (PyStr "words.vocab") PyNone
  = ([NewInitializer (vocabulary_initializer (PyStr "words.vocab"));
      NewTable (vocabulary_table (PyStr "words.vocab"))],
     inl (AssertionError "Tag table must be string type")).
Proof.
  split; [reflexivity |].
  exact (proj2 (assertions_and_requests_in_order lenient
                  (PyList [PyStr "train.txt"]) (PyList [PyStr "train.tags"])
                  (PyStr "words.vocab") PyNone
                  Defaults.batch_size Defaults.shuffle Defaults.buffer_size
                  Defaults.seed Defaults.threads Defaults.prefetch
                  Defaults.name eq_refl)
           eq_refl eq_refl eq_refl eq_refl).
Defined.

(** X6.  With [texts] not a string and two string table paths: when
    the framework refuses one of the four table requests, the requests
    before it were granted, none after it is made, and the framework's
    exception leaves the constructor as it was raised. *)
Theorem constructor_stops_at_first_refusal
  raises texts0 targets0 w t bs sh buf sd th pf nm msg :
  isinstance_str texts0 = false ->
  snd (attempt raises (lookup_requests (PyStr w) (PyStr t))) = Some msg ->
  exists granted c rest,
    lookup_requests (PyStr w) (PyStr t) = (granted ++ c :: rest)%list /\
    Forall (fun c' => raises c' = None) granted /\
    raises c = Some msg /\
    __init__ raises texts0 targets0 (PyStr w) (PyStr t) bs sh buf sd th pf nm
    = ((granted ++ [c])%list, inl (FrameworkError msg)).
Proof.
  intros Ht Hr. rewrite (init_run_strings _ _ _ _ _ _ _ _ _ _ _ _ Ht), Hr.
  destruct (attempt_first_refusal _ _ _ Hr)
    as (granted & c & rest & E & -> & Hg & Hc).
  exists granted, c, rest. auto.
Qed.

Lemma constructor_stops_at_first_refusal_witness :
  exists granted c rest,
    lookup_requests (PyStr "words.vocab") (PyStr "tags.vocab")
    = (granted ++ c :: rest)%list /\
    Forall (fun c' => refuse_tables c' = None) granted /\
    refuse_tables c = Some "NotFoundError" /\
    __init__default refuse_tables (PyList [PyStr "train.txt"])
      (PyList [PyStr "train.tags"]) (PyStr "words.vocab") (PyStr "tags.vocab")
    = ((granted ++ [c])%list, inl (FrameworkError "NotFoundError")).
Proof.
  exact (constructor_stops_at_first_refusal refuse_tables
           (PyList [PyStr "train.txt"]) (PyList [PyStr "train.tags"])
           "words.vocab" "tags.vocab"
           Defaults.batch_size Defaults.shuffle Defaults.buffer_size
           Defaults.seed Defaults.threads Defaults.prefetch Defaults.name
           "NotFoundError" eq_refl eq_refl).
Defined.

(** X7.  The constructor checks nothing about [targets], [shuffle],
    [seed], [threads], [prefetch] and [name], and about [texts] only
    whether it is a string: two calls that agree on the table paths,
    [batch_size] and [buffer_size], with neither [texts] a string,
    make the same requests and either raise the same exception or both
    return. *)
Theorem constructor_ignores_unchecked_arguments
  raises wt tt bs buf
  texts1 targets1 sh1 sd1 th1 pf1 nm1
  texts2 targets2 sh2 sd2 th2 pf2 nm2 :
  isinstance_str texts1 = false ->
  isinstance_str texts2 = false ->
  same_effect
    (__init__ raises texts1 targets1 wt tt bs sh1 buf sd1 th1 pf1 nm1)
    (__init__ raises texts2 targets2 wt tt bs sh2 buf sd2 th2 pf2 nm2).
Proof.
  intros H1 H2.
  rewrite (init_run raises _ _ _ _ _ _ _ _ _ _ _ H1),
          (init_run raises _ _ _ _ _ _ _ _ _ _ _ H2).
  repeat (apply same_effect_bind; intros ?).
  apply same_effect_ret.
Qed.

Lemma constructor_ignores_unchecked_arguments_witness :
  same_effect
    (__init__ lenient (PyList [PyStr "train.txt"]) (PyStr "tags")
       (PyStr "words.vocab") (PyInt 3) (PyInt 16) (PyBool true) PyNone
       (PyInt 1) (PyInt 4) (PyInt 1) (PyStr "a"))
    (__init__ lenient PyNone (PyInt 0)
       (PyStr "words.vocab") (PyInt 3) (PyInt 16) PyNone PyNone
       PyNone PyNone PyNone PyNone).
Proof.
  exact (constructor_ignores_unchecked_arguments lenient
           (PyStr "words.vocab") (PyInt 3) (PyInt 16) PyNone
           (PyList [PyStr "train.txt"]) (PyStr "tags") (PyBool true)
           (PyInt 1) (PyInt 4) (PyInt 1) (PyStr "a")
           PyNone (PyInt 0) PyNone PyNone PyNone PyNone PyNone
           eq_refl eq_refl).
Defined.

(** X8.  The buffer size a returned loader stores is truthy exactly
    when the [buffer_size] or the [batch_size] argument was: the
    loader shuffles with an empty buffer only if both were falsy. *)
Theorem buffer_size_truthy
  raises texts0 targets0 wt tt bs sh buf sd th pf nm d :
  returns (__init__ raises texts0 targets0 wt tt bs sh buf sd th pf nm) d ->
  truthy (buffer_size d) = truthy buf || truthy bs.
Proof.
  intros H. apply init_returns_inv in H.
  destruct H as (_ & _ & _ & _ & _ & _ & _ & _ & _ & _ & _ & _ & _ & Hb).
  destruct (truthy buf) eqn:E; simpl in Hb.
  - apply ret_returns in Hb. rewrite <- Hb, E. reflexivity.
  - apply truthy_times_three in Hb. rewrite Hb. reflexivity.
Qed.

Lemma buffer_size_truthy_witness :
  exists d,
    returns (__init__ lenient (PyList [PyStr "train.txt"])
               (PyList [PyStr "train.tags"]) (PyStr "words.vocab")
               (PyStr "tags.vocab") (PyInt 0) (PyBool true) PyNone
               (PyInt 1997) (PyInt 4) (PyInt 1) (PyStr "loader")) d /\
    truthy (buffer_size d) = false.
Proof.
  eexists. split; [reflexivity |].
  exact (buffer_size_truthy lenient (PyList [PyStr "train.txt"])
           (PyList [PyStr "train.tags"]) (PyStr "words.vocab")
           (PyStr "tags.vocab") (PyInt 0) (PyBool true) PyNone
           (PyInt 1997) (PyInt 4) (PyInt 1) (PyStr "loader") _ eq_refl).
Defined.

(** X9.  Building tables and building the pipeline are kept apart:
    the constructor asks the framework for at most four objects, all
    of them initialisers and tables for its two paths, and never for a
    dataset; calling a loader asks for no initialiser and no table. *)
Theorem construction_and_assembly_requests_separate
  raises texts0 targets0 wt tt bs sh buf sd th pf nm self :
  (forall c,
     In c (log_of (__init__ raises texts0 targets0 wt tt bs sh buf sd th
                     pf nm)) ->
     In c (lookup_requests wt tt) /\ is_lookup_request c = true) /\
  (List.length (log_of (__init__ raises texts0 targets0 wt tt bs sh buf sd
                          th pf nm)) <= 4)%nat /\
  (forall c, In c (log_of (__call__ raises self)) ->
             is_lookup_request c = false).
Proof.
  destruct (init_log_prefix raises texts0 targets0 wt tt bs sh buf sd th pf nm)
    as [rest E].
  split; [| split].
  - intros c Hin.
    assert (Hc : In c (lookup_requests wt tt))
      by (rewrite E; apply in_or_app; now left).
    split; [exact Hc |].
    unfold lookup_requests in Hc. simpl in Hc.
    destruct Hc as [<- | [<- | [<- | [<- | []]]]]; reflexivity.
  - apply (f_equal (@List.length call)) in E.
    rewrite length_app in E. simpl in E. lia.
  - intros c Hin. unfold log_of in Hin. rewrite call_run in Hin.
    cbn [fst] in Hin.
    destruct (attempt_log_prefix raises (Pipeline.steps self)) as [r Es].
    assert (Hc : In c (Pipeline.steps self))
      by (rewrite Es; apply in_or_app; now left).
    unfold Pipeline.steps in Hc.
    destruct (truthy (shuffle self)); simpl in Hc;
      repeat (destruct Hc as [<- | Hc]; [reflexivity |]); destruct Hc.
Qed.

(** X10.  Calling a loader returns a pipeline exactly when the
    framework grants every step of the assembly. *)
Theorem call_returns_iff raises self :
  (exists p, returns (__call__ raises self) p) <->
  Forall (fun c => raises c = None) (Pipeline.steps self).
Proof.
  split.
  - intros [p H]. now apply call_returns_inv in H.
  - intros Hg. exists (Pipeline.prefetched self).
    unfold returns, outcome. rewrite call_run, (attempt_granted _ _ Hg).
    reflexivity.
Qed.

(** X11.  When calling a loader raises, the exception is the one the
    framework raised on the last request made; the steps before it
    were granted and the steps after it are not requested. *)
Theorem call_stops_at_first_refusal raises self e :
  raised (__call__ raises self) e ->
  exists granted c rest msg,
    Pipeline.steps self = (granted ++ c :: rest)%list /\
    log_of (__call__ raises self) = (granted ++ [c])%list /\
    Forall (fun c' => raises c' = None) granted /\
    raises c = Some msg /\
    e = FrameworkError msg.
Proof.
  unfold raised, outcome, log_of. rewrite call_run. cbn [fst snd].
  destruct (snd (attempt raises (Pipeline.steps self))) as [msg |] eqn:E;
    [| discriminate].
  intros [= <-].
  destruct (attempt_first_refusal _ _ _ E)
    as (granted & c & rest & Es & El & Hg & Hc).
  exists granted, c, rest, msg. auto.
Qed.

Lemma call_stops_at_first_refusal_witness :
  raised (__call__ refuse_shuffle sample_loader)
    (FrameworkError "InvalidArgumentError") /\
  exists granted c rest msg,
    Pipeline.steps sample_loader = (granted ++ c :: rest)%list /\
    log_of (__call__ refuse_shuffle sample_loader) = (granted ++ [c])%list /\
    Forall (fun c' => refuse_shuffle c' = None) granted /\
    refuse_shuffle c = Some msg /\
    FrameworkError "InvalidArgumentError" = FrameworkError msg.
Proof.
  split; [reflexivity |].
  exact (call_stops_at_first_refusal refuse_shuffle sample_loader
           (FrameworkError "InvalidArgumentError") eq_refl).
Defined.
